(** * Azimuth web application: the Dashboard page

    A shallow embedding of [webapp/src/pages/Dashboard.tsx].  The React
    function component [Dashboard] reads four hooks and returns an element
    tree; here the values the hooks return are gathered in one record and
    the component is a function from that record to a datatype of element
    trees that keeps the props the page sets (titles, link targets, labels,
    the props handed to the preview components) and drops styling. *)

From stdpp Require Import gmap strings list.

Open Scope string_scope.

(** ** JavaScript values *)

(** A property read on an object used as a map is [!!]: [None] is
    [undefined].  [undefined] and [false] are falsy, [true] is truthy. *)
Definition truthy (v : option bool) : bool := default false v.

(** A string is truthy unless it is empty; [undefined] is falsy. *)
Definition truthy_string (v : option string) : bool :=
  match v with
  | Some s => negb (String.eqb s "")
  | None => false
  end.

(** [v || d] where [v] is a string or [undefined] and [d] a string. *)
Definition or_else (v : option string) (d : string) : string :=
  if truthy_string v then default d v else d.

(** [${v}] inside a template literal: [undefined] prints as the word. *)
Definition interpolate (v : option string) : string := default "undefined" v.

(** [c && x] in JSX: the element when [c] is truthy, otherwise a falsy value
    that React renders as nothing. *)
Definition when {A : Type} (c : bool) (x : A) : option A :=
  if c then Some x else None.

(** ** utils/const

    The module is not part of the sources at hand; the page imports two
    constants from it.  Their values are left open: every general statement
    below holds for any value of the two. *)
Class Const := {
  UNKNOWN_ERROR : string;
  DATASET_SPLIT_NAMES : list string
}.

(** ** Data the hooks return *)

(** An entry of [config.pipelines]; the page only counts them. *)
Record PipelineDefinition := { pipelineName : string }.

Record AzimuthConfig := { pipelines : option (list PipelineDefinition) }.

Record DatasetInfoResponse := {
  availableDatasetSplits : gmap string bool;
  similarityAvailable : bool;
  perturbationTestingAvailable : bool;
  postprocessingEditable : option (gmap nat bool)
}.

Record QueryPipelineState := { pipelineIndex : nat }.

Record QueryError := { message : option string }.

(** [useParams], [useQueryState], [getConfigEndpoint.useQuery] and
    [getDatasetInfoEndpoint.useQuery], in the order the component calls
    them. *)
Record Hooks := {
  jobId : string;
  pipeline : option QueryPipelineState;
  searchString : string;
  config : option AzimuthConfig;
  datasetInfo : option DatasetInfoResponse;
  error : option QueryError;
  isFetching : bool
}.

(** Modelled from the spec: [isPipelineSelected] of utils/helpers is not
    among the sources.  The spec has the selected pipeline as an optional
    reference, absent meaning that no pipeline is chosen, and a
    pipeline-dependent section eligible only when the pipeline is
    non-absent. *)
Definition isPipelineSelected (p : option QueryPipelineState) : bool :=
  bool_decide (is_Some p).

(** ** Element trees *)

(** The state setter that [WithDatasetSplitNameState] hands to its render
    prop, passed on to the preview component as a prop. *)
Inductive SetDatasetSplitName := setDatasetSplitName.

Inductive Preview :=
| WarningsPreview (job : string)
| ClassOverlapTable (job : string) (pl : option QueryPipelineState)
    (splits : gmap string bool)
| PerformanceAnalysis (job : string) (pl : option QueryPipelineState)
    (splits : gmap string bool) (datasetSplitName : option string)
    (set : SetDatasetSplitName)
| SmartTagsTable (job : string) (pl : option QueryPipelineState)
    (splits : gmap string bool) (datasetSplitName : option string)
    (set : SetDatasetSplitName)
| PerturbationTestingPreview (job : string) (pl : option QueryPipelineState)
    (splits : gmap string bool)
| ThresholdPlot (job : string) (pl : option QueryPipelineState).

Definition DEFAULT_PREVIEW_CONTENT_HEIGHT : Z := 502.

(** The [Box] a preview sits in, or none. *)
Inductive CardBody :=
| BoxHeight (px : Z) (child : Preview)
| BoxMaxHeight (px : Z) (child : Preview)
| Bare (child : Preview).

(** A [description] prop: a [Description] element written in the page, or
    one of the four imported from the sibling pages. *)
Inductive DescriptionNode :=
| Description (text link : string)
| performanceAnalysisDescription
| smartTagsDescription
| behavioralTestingDescription
| postprocessingDescription.

Record PreviewCardProps := {
  title : string;
  to : string;
  linkButtonText : option string;
  description : DescriptionNode;
  children : CardBody
}.

Record WithDatasetSplitNameStateProps := {
  defaultDatasetSplitName : option string;
  render : option string -> SetDatasetSplitName -> PreviewCardProps
}.

Inductive SectionNode :=
| PreviewCard (props : PreviewCardProps)
| WithDatasetSplitNameState (props : WithDatasetSplitNameStateProps).

(** The first child of the page: heading, description and the button that
    links to the exploration space. *)
Record HeaderProps := {
  heading : string;
  intro : DescriptionNode;
  buttonTo : string;
  buttonText : string
}.

Inductive Element :=
| Loading
| NoData (alt : string) (text : string)
| Page (header : HeaderProps) (sections : list (option SectionNode)).

(** ** The component *)

Section Component.
Context `{Const}.

(** [DATASET_SPLIT_NAMES.find(name => availableDatasetSplits[name])];
    [None] is the [undefined] that [find] returns when no element passes,
    which the non-null assertion does not check. *)
Definition firstAvailableDatasetSplit (info : DatasetInfoResponse)
  : option string :=
  find (fun datasetSplitName =>
          truthy (availableDatasetSplits info !! datasetSplitName))
       DATASET_SPLIT_NAMES.

(** [config?.pipelines && config.pipelines.length > 1
      ? "Compare pipelines" : undefined] *)
Definition compareLabel (cfg : option AzimuthConfig) : option string :=
  match cfg ≫= pipelines with
  | Some ps => if bool_decide (1 < length ps) then Some "Compare pipelines"
               else None
  | None => None
  end.

(** [postprocessingEditable?.[pipeline.pipelineIndex]], read once
    [isPipelineSelected] has passed. *)
Definition editableAt (info : DatasetInfoResponse)
    (p : option QueryPipelineState) : option bool :=
  m ← postprocessingEditable info;
  q ← p;
  m !! pipelineIndex q.

Definition Dashboard (h : Hooks) : Element :=
  if isFetching h then Loading
  else
    match error h, datasetInfo h with
    | Some _, _ | None, None =>
        NoData "no dataset info"
               (or_else (error h ≫= message) UNKNOWN_ERROR)
    | None, Some info =>
        let first := firstAvailableDatasetSplit info in
        let splits := availableDatasetSplits info in
        Page
          {| heading := "Dashboard";
             intro := Description
               "Explore the analyses of your datasets and pipelines."
               "user-guide/";
             buttonTo := "/" +:+ jobId h +:+ "/dataset_splits/"
               +:+ interpolate first +:+ "/prediction_overview"
               +:+ searchString h;
             buttonText := "Go to exploration space" |}
          [ Some (PreviewCard
              {| title := "Dataset Warnings";
                 to := "/" +:+ jobId h +:+ "/dataset_warnings"
                   +:+ searchString h;
                 linkButtonText := None;
                 description := Description
                   "Investigate issues related to class size, class imbalance, or dataset shift between your training and evaluation sets."
                   "user-guide/dataset-warnings/";
                 children := BoxHeight DEFAULT_PREVIEW_CONTENT_HEIGHT
                   (WarningsPreview (jobId h)) |});
            when (truthy (splits !! "train") && similarityAvailable info)
              (PreviewCard
              {| title := "Class Overlap";
                 to := "/" +:+ jobId h
                   +:+ "/dataset_splits/train/class_overlap"
                   +:+ searchString h;
                 linkButtonText := None;
                 description := Description
                   "Assess semantic overlap between class pairs and compare to pipeline confusion."
                   "user-guide/class-overlap/";
                 children := Bare
                   (ClassOverlapTable (jobId h) (pipeline h) splits) |});
            when (isPipelineSelected (pipeline h))
              (WithDatasetSplitNameState
              {| defaultDatasetSplitName := first;
                 render := fun datasetSplitName set =>
                   {| title := "Pipeline Metrics by Data Subpopulation";
                      to := "/" +:+ jobId h +:+ "/dataset_splits/"
                        +:+ interpolate datasetSplitName
                        +:+ "/pipeline_metrics" +:+ searchString h;
                      linkButtonText := compareLabel (config h);
                      description := performanceAnalysisDescription;
                      children := Bare
                        (PerformanceAnalysis (jobId h) (pipeline h) splits
                           datasetSplitName set) |} |});
            when (isPipelineSelected (pipeline h))
              (WithDatasetSplitNameState
              {| defaultDatasetSplitName := first;
                 render := fun datasetSplitName set =>
                   {| title := "Smart Tag Analysis";
                      to := "/" +:+ jobId h +:+ "/dataset_splits/"
                        +:+ interpolate datasetSplitName
                        +:+ "/smart_tags" +:+ searchString h;
                      linkButtonText := None;
                      description := smartTagsDescription;
                      children := BoxMaxHeight DEFAULT_PREVIEW_CONTENT_HEIGHT
                        (SmartTagsTable (jobId h) (pipeline h) splits
                           datasetSplitName set) |} |});
            when (isPipelineSelected (pipeline h)
                  && perturbationTestingAvailable info)
              (PreviewCard
              {| title := "Behavioral Testing";
                 to := "/" +:+ jobId h +:+ "/behavioral_testing_summary"
                   +:+ searchString h;
                 linkButtonText := None;
                 description := behavioralTestingDescription;
                 children := BoxHeight DEFAULT_PREVIEW_CONTENT_HEIGHT
                   (PerturbationTestingPreview (jobId h) (pipeline h)
                      splits) |});
            when (isPipelineSelected (pipeline h)
                  && truthy (splits !! "eval")
                  && truthy (editableAt info (pipeline h)))
              (PreviewCard
              {| title := "Post-processing Analysis";
                 to := "/" +:+ jobId h +:+ "/thresholds"
                   +:+ searchString h;
                 linkButtonText := None;
                 description := postprocessingDescription;
                 children := BoxHeight DEFAULT_PREVIEW_CONTENT_HEIGHT
                   (ThresholdPlot (jobId h) (pipeline h)) |}) ]
    end.
End Component.

(** ** What a rendered page shows *)

(** Modelled from the spec: components/WithDatasetSplitNameState is not
    among the sources.  The spec gives each such section a state cell of its
    own for the split it currently shows, initialised to the default split
    it is given and changed by the user within that section only. *)
Record SplitNameState := {
  owner : WithDatasetSplitNameStateProps;
  current : option string
}.

Definition mount (w : WithDatasetSplitNameStateProps) : SplitNameState :=
  {| owner := w; current := defaultDatasetSplitName w |}.

Definition choose (name : string) (c : SplitNameState) : SplitNameState :=
  {| owner := owner c; current := Some name |}.

Definition shown (c : SplitNameState) : PreviewCardProps :=
  render (owner c) (current c) setDatasetSplitName.

(** The card a section shows when its cell, if it has one, holds [cur]. *)
Definition card_of (cur : option string) (s : SectionNode)
  : PreviewCardProps :=
  match s with
  | PreviewCard p => p
  | WithDatasetSplitNameState w => shown {| owner := w; current := cur |}
  end.

Definition header_of (e : Element) : option HeaderProps :=
  match e with
  | Page hd _ => Some hd
  | _ => None
  end.

(** The sections React mounts: the truthy children, in order. *)
Definition sections_of (e : Element) : list SectionNode :=
  match e with
  | Page _ ss => omap id ss
  | _ => []
  end.

(** The cards on screen, [cells i] being the split held by the cell of the
    [i]-th mounted section. *)
Definition cards (cells : nat -> option string) (e : Element)
  : list PreviewCardProps :=
  imap (fun i s => card_of (cells i) s) (sections_of e).

Definition rendered (cells : nat -> option string) (t : string)
    (e : Element) : bool :=
  bool_decide (t ∈ title <$> cards cells e).

(** Every link target on screen: the header button, then the cards. *)
Definition links (cells : nat -> option string) (e : Element)
  : list string :=
  from_option (fun hd => [buttonTo hd]) [] (header_of e)
    ++ (to <$> cards cells e).

(** The fetch of the dataset info succeeded with data [info]. *)
Definition fetched (h : Hooks) (info : DatasetInfoResponse) : Prop :=
  isFetching h = false ∧ error h = None ∧ datasetInfo h = Some info.

(** The mapping of available splits is keyed by split names only, as its
    TypeScript type has it. *)
Definition keyed_by_split_names `{Const} (info : DatasetInfoResponse)
  : Prop :=
  ∀ name, is_Some (availableDatasetSplits info !! name) ->
          name ∈ DATASET_SPLIT_NAMES.

(** The section paths the page links to. *)
Definition section_paths : list string :=
  [ "prediction_overview"; "dataset_warnings"; "class_overlap";
    "pipeline_metrics"; "smart_tags"; "behavioral_testing_summary";
    "thresholds" ].

(** [/{jobId}/<section-path>{searchString}] or
    [/{jobId}/dataset_splits/{split}/<section-path>{searchString}]. *)
Definition link_shape (job search l : string) : Prop :=
  ∃ path, path ∈ section_paths ∧
    (l = "/" +:+ job +:+ "/" +:+ path +:+ search ∨
     ∃ split,
       l = "/" +:+ job +:+ "/dataset_splits/" +:+ split +:+ "/" +:+ path
             +:+ search).

(** The error text as the spec words it: the message of the fetch error if
    the error has one, the fallback otherwise. *)
Definition message_if_present `{Const} (e : option QueryError) : string :=
  default UNKNOWN_ERROR (e ≫= message).

(** ** Concrete data *)

(** Modelled from the spec: values for the two constants of utils/const,
    used where a statement is evaluated on concrete data.  The spec calls
    the fallback the fixed unknown-error string and gives train and eval as
    the split names. *)
Definition const_of_spec : Const :=
  {| UNKNOWN_ERROR := "unknown error";
     DATASET_SPLIT_NAMES := ["train"; "eval"] |}.

Definition info_all : DatasetInfoResponse :=
  {| availableDatasetSplits := {[ "train" := true; "eval" := true ]};
     similarityAvailable := true;
     perturbationTestingAvailable := true;
     postprocessingEditable := Some {[ 0 := true ]} |}.

Definition info_train_only : DatasetInfoResponse :=
  {| availableDatasetSplits := {[ "train" := true; "eval" := false ]};
     similarityAvailable := false;
     perturbationTestingAvailable := false;
     postprocessingEditable := None |}.

Definition info_eval_only : DatasetInfoResponse :=
  {| availableDatasetSplits := {[ "train" := false; "eval" := true ]};
     similarityAvailable := true;
     perturbationTestingAvailable := false;
     postprocessingEditable := Some {[ 0 := true ]} |}.

Definition two_pipelines : AzimuthConfig :=
  {| pipelines := Some [ {| pipelineName := "p0" |};
                         {| pipelineName := "p1" |} ] |}.

Definition hooks_all : Hooks :=
  {| jobId := "local";
     pipeline := Some {| pipelineIndex := 0 |};
     searchString := "?pipeline_index=0";
     config := Some two_pipelines;
     datasetInfo := Some info_all;
     error := None;
     isFetching := false |}.

Definition hooks_no_pipeline : Hooks :=
  {| jobId := "local";
     pipeline := None;
     searchString := "";
     config := None;
     datasetInfo := Some info_train_only;
     error := None;
     isFetching := false |}.

Definition hooks_fetching : Hooks :=
  {| jobId := "local";
     pipeline := None;
     searchString := "";
     config := Some two_pipelines;
     datasetInfo := None;
     error := None;
     isFetching := true |}.

Definition hooks_failed (msg : option string) : Hooks :=
  {| jobId := "local";
     pipeline := None;
     searchString := "";
     config := None;
     datasetInfo := None;
     error := Some {| message := msg |};
     isFetching := false |}.

(** The same constants with eval ahead of train. *)
Definition const_eval_first : Const :=
  {| UNKNOWN_ERROR := "unknown error";
     DATASET_SPLIT_NAMES := ["eval"; "train"] |}.

(** The Pipeline Metrics card of [hooks_all] while its cell holds train. *)
Definition metrics_card_all : PreviewCardProps :=
  {| title := "Pipeline Metrics by Data Subpopulation";
     to := "/local/dataset_splits/train/pipeline_metrics?pipeline_index=0";
     linkButtonText := Some "Compare pipelines";
     description := performanceAnalysisDescription;
     children := Bare
       (PerformanceAnalysis "local" (Some {| pipelineIndex := 0 |})
          (availableDatasetSplits info_all) (Some "train")
          setDatasetSplitName) |}.

(** Every cell holds the default it was mounted with. *)
Definition cells_default `{Const} (info : DatasetInfoResponse)
  : nat -> option string :=
  fun _ => firstAvailableDatasetSplit info.

(** ** Reading the props of the previews *)

(** The preview inside a card, out of its [Box] if it has one. *)
Definition preview_of (c : PreviewCardProps) : Preview :=
  match children c with
  | BoxHeight _ p | BoxMaxHeight _ p | Bare p => p
  end.

(** The [jobId] prop; every preview takes one. *)
Definition preview_job (p : Preview) : string :=
  match p with
  | WarningsPreview j | ClassOverlapTable j _ _
  | PerformanceAnalysis j _ _ _ _ | SmartTagsTable j _ _ _ _
  | PerturbationTestingPreview j _ _ | ThresholdPlot j _ => j
  end.

(** The [pipeline] prop of the previews that take one. *)
Definition preview_pipeline (p : Preview)
  : option (option QueryPipelineState) :=
  match p with
  | WarningsPreview _ => None
  | ClassOverlapTable _ pl _ | PerformanceAnalysis _ pl _ _ _
  | SmartTagsTable _ pl _ _ _ | PerturbationTestingPreview _ pl _
  | ThresholdPlot _ pl => Some pl
  end.

(** The [availableDatasetSplits] prop of the previews that take one. *)
Definition preview_splits (p : Preview) : option (gmap string bool) :=
  match p with
  | ClassOverlapTable _ _ m | PerformanceAnalysis _ _ m _ _
  | SmartTagsTable _ _ m _ _ | PerturbationTestingPreview _ _ m => Some m
  | WarningsPreview _ | ThresholdPlot _ _ => None
  end.

(** The [datasetSplitName] prop of the previews that take one. *)
Definition preview_split_name (p : Preview) : option (option string) :=
  match p with
  | PerformanceAnalysis _ _ _ n _ | SmartTagsTable _ _ _ n _ => Some n
  | _ => None
  end.

(** The titles of the six sections, in the order the page lists them. *)
Definition section_titles : list string :=
  [ "Dataset Warnings"; "Class Overlap";
    "Pipeline Metrics by Data Subpopulation"; "Smart Tag Analysis";
    "Behavioral Testing"; "Post-processing Analysis" ].

(** The same hooks with another result of [getConfigEndpoint.useQuery]. *)
Definition with_config (cfg : option AzimuthConfig) (h : Hooks) : Hooks :=
  {| jobId := jobId h;
     pipeline := pipeline h;
     searchString := searchString h;
     config := cfg;
     datasetInfo := datasetInfo h;
     error := error h;
     isFetching := isFetching h |}.

(** No pipeline of the configuration at all. *)
Definition no_pipelines : AzimuthConfig := {| pipelines := Some [] |}.

(** A dataset info with no split available. *)
Definition info_no_split : DatasetInfoResponse :=
  {| availableDatasetSplits := {[ "train" := false; "eval" := false ]};
     similarityAvailable := true;
     perturbationTestingAvailable := true;
     postprocessingEditable := None |}.

Definition hooks_no_split : Hooks :=
  {| jobId := "local";
     pipeline := Some {| pipelineIndex := 0 |};
     searchString := "";
     config := None;
     datasetInfo := Some info_no_split;
     error := None;
     isFetching := false |}.

(** The Behavioral Testing card of [hooks_all]. *)
Definition behavioral_card_all : PreviewCardProps :=
  {| title := "Behavioral Testing";
     to := "/local/behavioral_testing_summary?pipeline_index=0";
     linkButtonText := None;
     description := behavioralTestingDescription;
     children := BoxHeight DEFAULT_PREVIEW_CONTENT_HEIGHT
       (PerturbationTestingPreview "local" (Some {| pipelineIndex := 0 |})
          (availableDatasetSplits info_all)) |}.

(** * Properties *)

(** ** JavaScript values *)

Lemma truthy_true (v : option bool) : truthy v = true ↔ v = Some true.
Proof.
  destruct v as [[]|]; simpl; split; intros E; congruence.
Qed.

Lemma or_else_Some (m d : string) :
  or_else (Some m) d = if bool_decide (m = "") then d else m.
Proof.
  unfold or_else; simpl.
  destruct (String.eqb_spec m "") as [->|Hne]; simpl.
  - reflexivity.
  - rewrite bool_decide_eq_false_2 by assumption. reflexivity.
Qed.

Lemma or_else_None (d : string) : or_else None d = d.
Proof. reflexivity. Qed.

(** [Array.prototype.find] stops at the first element that passes. *)
Lemma find_first {A : Type} (f : A -> bool) (l : list A) (x : A) :
  x ∈ l -> f x = true ->
  ∃ s before after,
    find f l = Some s ∧ l = (before ++ s :: after)%list ∧ f s = true ∧
    Forall (fun y => f y = false) before.
Proof.
  intros Hin Hx. induction l as [|a l IH].
  - inversion Hin.
  - simpl. destruct (f a) eqn:Ea.
    + exists a, [], l. repeat split; auto.
    + assert (Hl : x ∈ l).
      { apply elem_of_cons in Hin as [->|Hl]; [congruence | exact Hl]. }
      destruct (IH Hl) as (s & before & after & Hf & -> & Hs & Hb).
      exists s, (a :: before), after. repeat split; auto.
Qed.

Lemma isPipelineSelected_true (p : option QueryPipelineState) :
  isPipelineSelected p = true ↔ is_Some p.
Proof. unfold isPipelineSelected. apply bool_decide_eq_true. Qed.

Lemma append_assoc (a b c : string) : (a +:+ b) +:+ c = a +:+ b +:+ c.
Proof.
  induction a as [|x a IH].
  - reflexivity.
  - change (String x ((a +:+ b) +:+ c) = String x (a +:+ b +:+ c)).
    f_equal. exact IH.
Qed.

(** Membership of a literal in [section_paths]. *)
Ltac in_paths := unfold section_paths; repeat constructor.

Lemma shape_plain (job search path : string) :
  path ∈ section_paths ->
  link_shape job search ("/" +:+ job +:+ "/" +:+ path +:+ search).
Proof. intros Hp. exists path. split; [exact Hp | left; reflexivity]. Qed.

Lemma shape_split (job search split path : string) :
  path ∈ section_paths ->
  link_shape job search
    ("/" +:+ job +:+ "/dataset_splits/" +:+ split +:+ "/" +:+ path
       +:+ search).
Proof.
  intros Hp. exists path. split; [exact Hp | right; exists split; reflexivity].
Qed.

Lemma split_link_frame (job search split path : string) :
  "/" +:+ job +:+ "/dataset_splits/" +:+ split +:+ "/" +:+ path +:+ search
  = "/" +:+ job +:+ "/" +:+ ("dataset_splits/" +:+ split +:+ "/" +:+ path)
      +:+ search.
Proof.
  rewrite !append_assoc. reflexivity.
Qed.

Section Properties.
Context `{Const}.

(** ** The default split *)

(** C1.  When the mapping of available splits, keyed by split names, has
    a true entry, [firstAvailableDatasetSplit] is a name of
    [DATASET_SPLIT_NAMES] whose entry is true and no name before it in
    that list has a true entry; and the result is a function of the
    mapping alone, so evaluating it again on the same mapping gives the
    same name. *)
Theorem firstAvailableDatasetSplit_is_first (info : DatasetInfoResponse) :
  keyed_by_split_names info ->
  (∃ name, availableDatasetSplits info !! name = Some true) ->
  (∃ s before after,
     firstAvailableDatasetSplit info = Some s ∧
     DATASET_SPLIT_NAMES = (before ++ s :: after)%list ∧
     availableDatasetSplits info !! s = Some true ∧
     ∀ name, name ∈ before ->
             availableDatasetSplits info !! name ≠ Some true) ∧
  (∀ info',
     availableDatasetSplits info' = availableDatasetSplits info ->
     firstAvailableDatasetSplit info' = firstAvailableDatasetSplit info).
Proof.
  intros Hkeys [name Hname]. split.
  - assert (Hin : name ∈ DATASET_SPLIT_NAMES).
    { apply Hkeys. rewrite Hname. eauto. }
    destruct (find_first
                (fun n => truthy (availableDatasetSplits info !! n))
                DATASET_SPLIT_NAMES name Hin)
      as (s & before & after & Hf & Hl & Hs & Hb).
    { apply truthy_true, Hname. }
    exists s, before, after. repeat split; try assumption.
    + apply truthy_true, Hs.
    + intros n Hn Htrue. rewrite Forall_forall in Hb.
      specialize (Hb n Hn). simpl in Hb.
      apply truthy_true in Htrue. congruence.
  - intros info' E. unfold firstAvailableDatasetSplit. rewrite E.
    reflexivity.
Qed.

(** ** Loading, failure, page *)

Lemma Dashboard_fetching (h : Hooks) :
  isFetching h = true -> Dashboard h = Loading.
Proof. intros E. unfold Dashboard. rewrite E. reflexivity. Qed.

Lemma Dashboard_no_data (h : Hooks) :
  isFetching h = false ->
  is_Some (error h) ∨ datasetInfo h = None ->
  Dashboard h =
    NoData "no dataset info" (or_else (error h ≫= message) UNKNOWN_ERROR).
Proof.
  intros E Hfail. unfold Dashboard. rewrite E.
  destruct (error h) as [e|] eqn:Ee.
  - reflexivity.
  - destruct Hfail as [[e He]|Hd]; [discriminate|].
    rewrite Hd. reflexivity.
Qed.

(** C2, amended.  The component returns the loading indicator, with no
    section, whenever the fetch of the dataset info is in flight, whatever
    the other hooks hold; otherwise, when the fetch has an error or has no
    data, the placeholder with no section, whose text is the message of
    the error when the error has a message that is not the empty string,
    and the fallback [UNKNOWN_ERROR] otherwise; otherwise a page with its
    seven children, the header and six section slots. *)
Theorem Dashboard_dispatch (h : Hooks) :
  (isFetching h = true ->
   Dashboard h = Loading ∧ sections_of (Dashboard h) = []) ∧
  (isFetching h = false ->
   is_Some (error h) ∨ datasetInfo h = None ->
   Dashboard h =
     NoData "no dataset info"
       (match error h ≫= message with
        | Some m => if bool_decide (m = "") then UNKNOWN_ERROR else m
        | None => UNKNOWN_ERROR
        end) ∧
   sections_of (Dashboard h) = []) ∧
  (∀ info, fetched h info ->
     ∃ hd ss, Dashboard h = Page hd ss ∧ length ss = 6).
Proof.
  split; [|split].
  - intros E. rewrite (Dashboard_fetching h E). split; reflexivity.
  - intros E Hfail. rewrite (Dashboard_no_data h E Hfail).
    split; [|reflexivity]. f_equal.
    destruct (error h ≫= message) as [m|].
    + apply or_else_Some.
    + apply or_else_None.
  - intros info (E & Ee & Ed). unfold Dashboard. rewrite E, Ee, Ed.
    eexists _, _. split; reflexivity.
Qed.

(** C10.  When the fetch is over and its error carries the message [m],
    the placeholder shows the fallback [UNKNOWN_ERROR] if [m] is the empty
    string and shows [m] itself if [m] is not empty. *)
Theorem empty_message_gives_fallback (h : Hooks) (m : string) :
  isFetching h = false ->
  error h = Some {| message := Some m |} ->
  (m = "" -> Dashboard h = NoData "no dataset info" UNKNOWN_ERROR) ∧
  (m ≠ "" -> Dashboard h = NoData "no dataset info" m).
Proof.
  intros E Ee.
  assert (Hd : Dashboard h =
               NoData "no dataset info"
                      (if bool_decide (m = "") then UNKNOWN_ERROR else m)).
  { rewrite (Dashboard_no_data h E) by (rewrite Ee; eauto).
    rewrite Ee. simpl. rewrite or_else_Some. reflexivity. }
  split; intros Hm; rewrite Hd.
  - rewrite bool_decide_eq_true_2 by assumption. reflexivity.
  - rewrite bool_decide_eq_false_2 by assumption. reflexivity.
Qed.

(** ** The sections of the page *)

(** Which titles are on screen, whatever split each section shows. *)
Lemma rendered_fetched (h : Hooks) (info : DatasetInfoResponse)
    (cells : nat -> option string) :
  fetched h info ->
  let e := Dashboard h in
  let splits := availableDatasetSplits info in
  let selected := isPipelineSelected (pipeline h) in
  rendered cells "Dataset Warnings" e = true ∧
  rendered cells "Class Overlap" e
    = truthy (splits !! "train") && similarityAvailable info ∧
  rendered cells "Pipeline Metrics by Data Subpopulation" e = selected ∧
  rendered cells "Smart Tag Analysis" e = selected ∧
  rendered cells "Behavioral Testing" e
    = selected && perturbationTestingAvailable info ∧
  rendered cells "Post-processing Analysis" e
    = selected && truthy (splits !! "eval")
      && truthy (editableAt info (pipeline h)).
Proof.
  intros (E & Ee & Ed). unfold Dashboard. rewrite E, Ee, Ed.
  destruct (isPipelineSelected (pipeline h)); cbn [andb];
    destruct (truthy (availableDatasetSplits info !! "train")
              && similarityAvailable info),
      (perturbationTestingAvailable info),
      (truthy (availableDatasetSplits info !! "eval")
       && truthy (editableAt info (pipeline h)));
    vm_compute; auto 10.
Qed.

(** Every card on screen is one of six, with the link target and the
    label the page gives it. *)
Lemma card_table (h : Hooks) (info : DatasetInfoResponse)
    (cells : nat -> option string) (c : PreviewCardProps) :
  fetched h info ->
  c ∈ cards cells (Dashboard h) ->
  (title c = "Dataset Warnings" ∧
   to c = "/" +:+ jobId h +:+ "/dataset_warnings" +:+ searchString h) ∨
  (title c = "Class Overlap" ∧
   to c = "/" +:+ jobId h +:+ "/dataset_splits/train/class_overlap"
            +:+ searchString h) ∨
  (title c = "Pipeline Metrics by Data Subpopulation" ∧
   linkButtonText c = compareLabel (config h) ∧
   ∃ cur, to c = "/" +:+ jobId h +:+ "/dataset_splits/" +:+ interpolate cur
                   +:+ "/pipeline_metrics" +:+ searchString h) ∨
  (title c = "Smart Tag Analysis" ∧
   ∃ cur, to c = "/" +:+ jobId h +:+ "/dataset_splits/" +:+ interpolate cur
                   +:+ "/smart_tags" +:+ searchString h) ∨
  (title c = "Behavioral Testing" ∧
   to c = "/" +:+ jobId h +:+ "/behavioral_testing_summary"
            +:+ searchString h) ∨
  (title c = "Post-processing Analysis" ∧
   to c = "/" +:+ jobId h +:+ "/thresholds" +:+ searchString h).
Proof.
  intros (E & Ee & Ed). unfold Dashboard. rewrite E, Ee, Ed.
  destruct (isPipelineSelected (pipeline h)); cbn [andb];
    destruct (truthy (availableDatasetSplits info !! "train")
              && similarityAvailable info),
      (perturbationTestingAvailable info),
      (truthy (availableDatasetSplits info !! "eval")
       && truthy (editableAt info (pipeline h)));
    cbn; intros Hin;
    repeat (apply elem_of_cons in Hin as [->|Hin]);
    try (by apply elem_of_nil in Hin); cbn.
  all: repeat first [ left; solve [repeat first [split | eexists]]
                    | solve [repeat first [split | eexists]]
                    | right ].
Qed.

Lemma rendered_card (cells : nat -> option string) (t : string)
    (e : Element) :
  rendered cells t e = true ↔ ∃ c, c ∈ cards cells e ∧ title c = t.
Proof.
  unfold rendered. rewrite bool_decide_eq_true, list_elem_of_fmap.
  split; intros (c & H1 & H2); exists c; auto.
Qed.

Lemma editableAt_true (info : DatasetInfoResponse)
    (p : option QueryPipelineState) :
  truthy (editableAt info p) = true ↔
  ∃ q m, p = Some q ∧ postprocessingEditable info = Some m ∧
         m !! pipelineIndex q = Some true.
Proof.
  rewrite truthy_true. unfold editableAt.
  destruct (postprocessingEditable info) as [m|], p as [q|]; simpl;
    split; try discriminate.
  - intros E. exists q, m. auto.
  - intros (q' & m' & Hq & Hm & E). congruence.
  - intros (q' & m' & Hq & Hm & E). discriminate.
  - intros (q' & m' & Hq & Hm & E). discriminate.
  - intros (q' & m' & Hq & Hm & E). discriminate.
Qed.

(** The mounted sections: a plain card, or a split-name state whose
    default is the first available split. *)
Lemma section_table (h : Hooks) (info : DatasetInfoResponse)
    (s : SectionNode) :
  fetched h info ->
  s ∈ sections_of (Dashboard h) ->
  (∃ c, s = PreviewCard c ∧
        title c ≠ "Pipeline Metrics by Data Subpopulation" ∧
        title c ≠ "Smart Tag Analysis") ∨
  (∃ w, s = WithDatasetSplitNameState w ∧
        defaultDatasetSplitName w = firstAvailableDatasetSplit info).
Proof.
  intros (E & Ee & Ed). unfold Dashboard. rewrite E, Ee, Ed.
  destruct (isPipelineSelected (pipeline h)); cbn [andb];
    destruct (truthy (availableDatasetSplits info !! "train")
              && similarityAvailable info),
      (perturbationTestingAvailable info),
      (truthy (availableDatasetSplits info !! "eval")
       && truthy (editableAt info (pipeline h)));
    cbn; intros Hin;
    repeat (apply elem_of_cons in Hin as [->|Hin]);
    try (by apply elem_of_nil in Hin).
  all: first [ left; eexists; split; [reflexivity|]; split; discriminate
             | right; eexists; split; reflexivity ].
Qed.

(** C3.  On a page, the Post-processing Analysis section is on screen
    exactly when a pipeline is selected, the eval split is available and
    [postprocessingEditable] holds true at the index of the selected
    pipeline; when the mapping is missing, or has no entry at that index,
    the section is not on screen. *)
Theorem postprocessing_rendered_iff (h : Hooks)
    (info : DatasetInfoResponse) (cells : nat -> option string) :
  fetched h info ->
  (rendered cells "Post-processing Analysis" (Dashboard h) = true ↔
     isPipelineSelected (pipeline h) = true ∧
     availableDatasetSplits info !! "eval" = Some true ∧
     ∃ p m, pipeline h = Some p ∧ postprocessingEditable info = Some m ∧
            m !! pipelineIndex p = Some true) ∧
  (∀ p, pipeline h = Some p ->
        postprocessingEditable info = None ∨
        (∃ m, postprocessingEditable info = Some m ∧
              m !! pipelineIndex p = None) ->
        rendered cells "Post-processing Analysis" (Dashboard h) = false).
Proof.
  intros Hf.
  destruct (rendered_fetched h info cells Hf) as (_ & _ & _ & _ & _ & R).
  simpl in R. rewrite R. split.
  - rewrite !andb_true_iff, truthy_true, editableAt_true. tauto.
  - intros p Hp Habsent. apply not_true_is_false.
    rewrite !andb_true_iff, editableAt_true.
    intros (_ & q & m & Hq & Hm & Hlook).
    destruct Habsent as [Hnone | (m' & Hm' & Hnone)]; congruence.
Qed.

(** C4.  On a page, the Class Overlap section is on screen exactly when
    the train split is available and [similarityAvailable] is true, and a
    card with that title links to the class overlap of the train split,
    whatever the first available split is. *)
Theorem class_overlap_rendered_iff (h : Hooks)
    (info : DatasetInfoResponse) (cells : nat -> option string) :
  fetched h info ->
  (rendered cells "Class Overlap" (Dashboard h) = true ↔
     availableDatasetSplits info !! "train" = Some true ∧
     similarityAvailable info = true) ∧
  (∀ c, c ∈ cards cells (Dashboard h) -> title c = "Class Overlap" ->
        to c = "/" +:+ jobId h +:+ "/dataset_splits/" +:+ "train"
                 +:+ "/class_overlap" +:+ searchString h).
Proof.
  intros Hf. split.
  - destruct (rendered_fetched h info cells Hf) as (_ & R & _).
    simpl in R. rewrite R, andb_true_iff, truthy_true. tauto.
  - intros c Hc Ht.
    destruct (card_table h info cells c Hf Hc)
      as [[T _]|[[_ L]|[[T _]|[[T _]|[[T _]|[T _]]]]]];
      try (rewrite Ht in T; discriminate).
    exact L.
Qed.

(** C5.  On a page, the Pipeline Metrics by Data Subpopulation section
    and the Smart Tag Analysis section are each on screen exactly when a
    pipeline is selected, so on two pages with the same pipeline selection
    the two are on screen alike whatever the dataset info holds; and the
    section that carries either title is a split-name state whose cell
    starts at [firstAvailableDatasetSplit]. *)
Theorem pipeline_sections_rendered_iff (h : Hooks)
    (info : DatasetInfoResponse) (cells : nat -> option string) :
  fetched h info ->
  (rendered cells "Pipeline Metrics by Data Subpopulation" (Dashboard h)
     = true ↔ isPipelineSelected (pipeline h) = true) ∧
  (rendered cells "Smart Tag Analysis" (Dashboard h) = true ↔
     isPipelineSelected (pipeline h) = true) ∧
  (∀ h' info' cells', fetched h' info' -> pipeline h' = pipeline h ->
     rendered cells' "Pipeline Metrics by Data Subpopulation"
              (Dashboard h')
       = rendered cells "Pipeline Metrics by Data Subpopulation"
                  (Dashboard h) ∧
     rendered cells' "Smart Tag Analysis" (Dashboard h')
       = rendered cells "Smart Tag Analysis" (Dashboard h)) ∧
  (∀ s cur, s ∈ sections_of (Dashboard h) ->
     title (card_of cur s) = "Pipeline Metrics by Data Subpopulation" ∨
     title (card_of cur s) = "Smart Tag Analysis" ->
     ∃ w, s = WithDatasetSplitNameState w ∧
          current (mount w) = firstAvailableDatasetSplit info).
Proof.
  intros Hf.
  destruct (rendered_fetched h info cells Hf) as (_ & _ & R1 & R2 & _).
  simpl in R1, R2. rewrite R1, R2.
  split; [tauto|]. split; [tauto|]. split.
  - intros h' info' cells' Hf' Hp.
    destruct (rendered_fetched h' info' cells' Hf')
      as (_ & _ & R1' & R2' & _).
    simpl in R1', R2'. rewrite R1', R2', Hp. split; reflexivity.
  - intros s cur Hs Ht.
    destruct (section_table h info s Hf Hs)
      as [(c & -> & N1 & N2) | (w & -> & Hw)].
    + simpl in Ht. tauto.
    + exists w. split; [reflexivity | exact Hw].
Qed.

(** C6.  On a page, the Behavioral Testing section is on screen exactly
    when a pipeline is selected and [perturbationTestingAvailable] is
    true, and a card with that title links to the behavioral testing
    summary of the job, a path made of the job id and the search string
    alone. *)
Theorem behavioral_testing_rendered_iff (h : Hooks)
    (info : DatasetInfoResponse) (cells : nat -> option string) :
  fetched h info ->
  (rendered cells "Behavioral Testing" (Dashboard h) = true ↔
     isPipelineSelected (pipeline h) = true ∧
     perturbationTestingAvailable info = true) ∧
  (∀ c, c ∈ cards cells (Dashboard h) -> title c = "Behavioral Testing" ->
        to c = "/" +:+ jobId h +:+ "/behavioral_testing_summary"
                 +:+ searchString h).
Proof.
  intros Hf. split.
  - destruct (rendered_fetched h info cells Hf) as (_ & _ & _ & _ & R & _).
    simpl in R. rewrite R, andb_true_iff. tauto.
  - intros c Hc Ht.
    destruct (card_table h info cells c Hf Hc)
      as [[T _]|[[T _]|[[T _]|[[T _]|[[_ L]|[T _]]]]]];
      try (rewrite Ht in T; discriminate).
    exact L.
Qed.

Lemma header_button (h : Hooks)
    (info : DatasetInfoResponse) :
  fetched h info ->
  ∃ hd, header_of (Dashboard h) = Some hd ∧
    buttonTo hd = "/" +:+ jobId h +:+ "/dataset_splits/"
                    +:+ interpolate (firstAvailableDatasetSplit info)
                    +:+ "/" +:+ "prediction_overview" +:+ searchString h.
Proof.
  intros (E & Ee & Ed). unfold Dashboard. rewrite E, Ee, Ed.
  eexists. split; reflexivity.
Qed.

(** C7.  On every page the header is present, with the title, the static
    description and the button that links to the prediction overview of
    [firstAvailableDatasetSplit], and the first section is the Dataset
    Warnings card, which links to the dataset warnings of the job with no
    split in the path; neither depends on the pipeline selection, the job
    configuration or any other field of the dataset info. *)
Theorem header_and_warnings_always (h : Hooks)
    (info : DatasetInfoResponse) (cells : nat -> option string) :
  fetched h info ->
  (∃ hd, header_of (Dashboard h) = Some hd ∧
     heading hd = "Dashboard" ∧
     intro hd = Description
                  "Explore the analyses of your datasets and pipelines."
                  "user-guide/" ∧
     buttonTo hd = "/" +:+ jobId h +:+ "/dataset_splits/"
                     +:+ interpolate (firstAvailableDatasetSplit info)
                     +:+ "/prediction_overview" +:+ searchString h ∧
     ∀ s, firstAvailableDatasetSplit info = Some s ->
          buttonTo hd = "/" +:+ jobId h +:+ "/dataset_splits/" +:+ s
                          +:+ "/prediction_overview" +:+ searchString h) ∧
  (∃ c, cards cells (Dashboard h) !! 0 = Some c ∧
     title c = "Dataset Warnings" ∧
     to c = "/" +:+ jobId h +:+ "/dataset_warnings" +:+ searchString h) ∧
  rendered cells "Dataset Warnings" (Dashboard h) = true.
Proof.
  intros Hf. split; [|split].
  - destruct Hf as (E & Ee & Ed). unfold Dashboard. rewrite E, Ee, Ed.
    eexists. split; [reflexivity|]. cbn. repeat split.
    intros s ->. reflexivity.
  - destruct Hf as (E & Ee & Ed). unfold Dashboard. rewrite E, Ee, Ed.
    eexists. cbn. repeat split.
  - apply (rendered_fetched h info cells Hf).
Qed.

Lemma compareLabel_Some (cfg : option AzimuthConfig) :
  compareLabel cfg = Some "Compare pipelines" ↔
  ∃ c ps, cfg = Some c ∧ pipelines c = Some ps ∧ 1 < length ps.
Proof.
  unfold compareLabel. destruct cfg as [c|]; simpl.
  - destruct (pipelines c) as [ps|] eqn:Hps.
    + case_bool_decide as Hlen; split.
      * intros _. exists c, ps. auto.
      * reflexivity.
      * discriminate.
      * intros (c' & ps' & [= <-] & Hps' & Hlt).
        assert (ps' = ps) as -> by congruence. contradiction.
    + split; [discriminate|].
      intros (c' & ps' & [= <-] & Hps' & _). congruence.
  - split; [discriminate|]. intros (c' & ps' & [=] & _).
Qed.

Lemma compareLabel_None (cfg : option AzimuthConfig) :
  ¬ (∃ c ps, cfg = Some c ∧ pipelines c = Some ps ∧ 1 < length ps) ->
  compareLabel cfg = None.
Proof.
  intros Hno. unfold compareLabel. destruct cfg as [c|]; simpl.
  - destruct (pipelines c) as [ps|] eqn:Hps; [|reflexivity].
    case_bool_decide as Hlen; [|reflexivity].
    exfalso. apply Hno. exists c, ps. auto.
  - reflexivity.
Qed.

(** C8.  On a page that shows the Pipeline Metrics by Data Subpopulation
    card, the card has the link label Compare pipelines exactly when the
    job configuration is present and lists more than one pipeline, and has
    no label at all otherwise: when the configuration is absent, when it
    has no list of pipelines, and when the list has zero or one entry. *)
Theorem compare_pipelines_label (h : Hooks) (info : DatasetInfoResponse)
    (cells : nat -> option string) (c : PreviewCardProps) :
  fetched h info ->
  c ∈ cards cells (Dashboard h) ->
  title c = "Pipeline Metrics by Data Subpopulation" ->
  (linkButtonText c = Some "Compare pipelines" ↔
     ∃ cfg ps, config h = Some cfg ∧ pipelines cfg = Some ps ∧
               1 < length ps) ∧
  (config h = None -> linkButtonText c = None) ∧
  (∀ cfg, config h = Some cfg -> pipelines cfg = None ->
          linkButtonText c = None) ∧
  (∀ cfg ps, config h = Some cfg -> pipelines cfg = Some ps ->
             (length ps ≤ 1)%nat -> linkButtonText c = None).
Proof.
  intros Hf Hc Ht.
  assert (L : linkButtonText c = compareLabel (config h)).
  { destruct (card_table h info cells c Hf Hc)
      as [[T _]|[[T _]|[[_ [L _]]|[[T _]|[[T _]|[T _]]]]]];
      try (rewrite Ht in T; discriminate).
    exact L. }
  rewrite L. split; [apply compareLabel_Some|].
  split; [|split].
  - intros Hcfg. apply compareLabel_None.
    intros (cfg & ps & Hc' & _). congruence.
  - intros cfg Hcfg Hps. apply compareLabel_None.
    intros (cfg' & ps & Hc' & Hps' & _). congruence.
  - intros cfg ps Hcfg Hps Hle. apply compareLabel_None.
    intros (cfg' & ps' & Hc' & Hps' & Hlt).
    assert (ps' = ps) as -> by congruence. lia.
Qed.

(** C9.  Every link target on a page, the header button and the card
    links, for whatever split the sections currently show, has one of the
    two shapes [/{jobId}/<section-path>{searchString}] and
    [/{jobId}/dataset_splits/{split}/<section-path>{searchString}]; so it
    starts with the job id as first segment and ends with the search
    string, unchanged. *)
Theorem links_shape (h : Hooks) (info : DatasetInfoResponse)
    (cells : nat -> option string) (l : string) :
  fetched h info ->
  l ∈ links cells (Dashboard h) ->
  link_shape (jobId h) (searchString h) l ∧
  ∃ rest, l = "/" +:+ jobId h +:+ "/" +:+ rest +:+ searchString h.
Proof.
  intros Hf Hl.
  assert (Hplain : ∀ path, path ∈ section_paths ->
            link_shape (jobId h) (searchString h)
              ("/" +:+ jobId h +:+ "/" +:+ path +:+ searchString h) ∧
            ∃ rest, "/" +:+ jobId h +:+ "/" +:+ path +:+ searchString h
                    = "/" +:+ jobId h +:+ "/" +:+ rest +:+ searchString h).
  { intros path Hp. split; [by apply shape_plain | by exists path]. }
  assert (Hsplit : ∀ split path, path ∈ section_paths ->
            link_shape (jobId h) (searchString h)
              ("/" +:+ jobId h +:+ "/dataset_splits/" +:+ split +:+ "/"
                 +:+ path +:+ searchString h) ∧
            ∃ rest, "/" +:+ jobId h +:+ "/dataset_splits/" +:+ split
                      +:+ "/" +:+ path +:+ searchString h
                    = "/" +:+ jobId h +:+ "/" +:+ rest +:+ searchString h).
  { intros split path Hp. split; [by apply shape_split|].
    eexists. apply split_link_frame. }
  unfold links in Hl. apply elem_of_app in Hl as [Hl|Hl].
  - destruct (header_button h info Hf) as (hd & Hhd & Hto).
    rewrite Hhd in Hl. simpl in Hl.
    apply list_elem_of_singleton in Hl as ->. rewrite Hto.
    apply (Hsplit (interpolate (firstAvailableDatasetSplit info))
                  "prediction_overview").
    in_paths.
  - apply list_elem_of_fmap in Hl as (c & -> & Hc).
    destruct (card_table h info cells c Hf Hc)
      as [[_ L]|[[_ L]|[[_ [_ [cur L]]]|[[_ [cur L]]|[[_ L]|[_ L]]]]]];
      rewrite L.
    + apply (Hplain "dataset_warnings"). in_paths.
    + apply (Hsplit "train" "class_overlap").
      in_paths.
    + apply (Hsplit (interpolate cur) "pipeline_metrics").
      in_paths.
    + apply (Hsplit (interpolate cur) "smart_tags").
      in_paths.
    + apply (Hplain "behavioral_testing_summary").
      in_paths.
    + apply (Hplain "thresholds"). in_paths.
Qed.

(** An error whose message is the empty string: the placeholder shows
    the fallback, so whenever the fallback is not itself empty the text is
    not the message of the error. *)
Lemma empty_message_not_shown :
  UNKNOWN_ERROR ≠ "" ->
  Dashboard (hooks_failed (Some ""))
  ≠ NoData "no dataset info"
      (message_if_present (error (hooks_failed (Some "")))).
Proof.
  intros Hne Heq. apply Hne.
  unfold Dashboard, message_if_present, or_else in Heq. simpl in Heq.
  injection Heq as Heq. exact Heq.
Qed.

(** ** The split a section shows *)

Lemma mount_current (w : WithDatasetSplitNameStateProps) :
  current (mount w) = defaultDatasetSplitName w.
Proof. reflexivity. Qed.

(** Choosing a split changes the cell and leaves the props, the default
    among them, as they were. *)
Lemma choose_current (name : string) (c : SplitNameState) :
  current (choose name c) = Some name ∧ owner (choose name c) = owner c.
Proof. split; reflexivity. Qed.
End Properties.

(** ** The scenarios of the specification *)

(** Train only, no similarity, no pipeline: the header and Dataset Warnings,
    nothing else. *)
Example scenario_train_only :
  title <$> cards (@cells_default const_of_spec info_train_only)
                  (@Dashboard const_of_spec hooks_no_pipeline)
  = ["Dataset Warnings"] ∧
  links (@cells_default const_of_spec info_train_only)
        (@Dashboard const_of_spec hooks_no_pipeline)
  = ["/local/dataset_splits/train/prediction_overview";
     "/local/dataset_warnings"].
Proof. split; vm_compute; reflexivity. Qed.

(** Everything available, pipeline 0 of two selected: all six sections, and
    the label on Pipeline Metrics. *)
Example scenario_all :
  title <$> cards (@cells_default const_of_spec info_all)
                  (@Dashboard const_of_spec hooks_all)
  = ["Dataset Warnings"; "Class Overlap";
     "Pipeline Metrics by Data Subpopulation"; "Smart Tag Analysis";
     "Behavioral Testing"; "Post-processing Analysis"] ∧
  cards (@cells_default const_of_spec info_all)
        (@Dashboard const_of_spec hooks_all) !! 2
  = Some metrics_card_all.
Proof. split; vm_compute; reflexivity. Qed.

(** With eval ahead of train the header links to eval while Class Overlap
    still links to train. *)
Example class_overlap_names_train :
  links (@cells_default const_eval_first info_all)
        (@Dashboard const_eval_first hooks_all)
  = ["/local/dataset_splits/eval/prediction_overview?pipeline_index=0";
     "/local/dataset_warnings?pipeline_index=0";
     "/local/dataset_splits/train/class_overlap?pipeline_index=0";
     "/local/dataset_splits/eval/pipeline_metrics?pipeline_index=0";
     "/local/dataset_splits/eval/smart_tags?pipeline_index=0";
     "/local/behavioral_testing_summary?pipeline_index=0";
     "/local/thresholds?pipeline_index=0"].
Proof. vm_compute. reflexivity. Qed.

(** No split available: [find] returns [undefined] and the links carry the
    word. *)
Example no_split_available :
  header_of (@Dashboard const_of_spec
    {| jobId := "local"; pipeline := None; searchString := "";
       config := None;
       datasetInfo := Some
         {| availableDatasetSplits := ∅; similarityAvailable := false;
            perturbationTestingAvailable := false;
            postprocessingEditable := None |};
       error := None; isFetching := false |})
  = Some {| heading := "Dashboard";
            intro := Description
              "Explore the analyses of your datasets and pipelines."
              "user-guide/";
            buttonTo := "/local/dataset_splits/undefined/prediction_overview";
            buttonText := "Go to exploration space" |}.
Proof. vm_compute. reflexivity. Qed.

(** ** The statements on concrete data *)

Lemma fetched_hooks_all : fetched hooks_all info_all.
Proof. repeat split. Defined.

Lemma firstAvailableDatasetSplit_is_first_witness :
  @keyed_by_split_names const_of_spec info_eval_only ∧
  (∃ name, availableDatasetSplits info_eval_only !! name = Some true) ∧
  ∃ (s : string) (before : list string),
    @firstAvailableDatasetSplit const_of_spec info_eval_only = Some s ∧
    availableDatasetSplits info_eval_only !! s = Some true ∧
    ∀ name, name ∈ before ->
            availableDatasetSplits info_eval_only !! name ≠ Some true.
Proof.
  assert (Hkeys : @keyed_by_split_names const_of_spec info_eval_only).
  { intros name [v Hv]. simpl in *.
    apply lookup_insert_Some in Hv as [[<- _]|[_ Hv]]; [repeat constructor|].
    apply lookup_singleton_Some in Hv as [<- _]. repeat constructor. }
  assert (Htrue : ∃ name,
             availableDatasetSplits info_eval_only !! name = Some true).
  { exists "eval". reflexivity. }
  split; [exact Hkeys|]. split; [exact Htrue|].
  destruct (@firstAvailableDatasetSplit_is_first const_of_spec
              info_eval_only Hkeys Htrue)
    as [(s & before & after & Hf & _ & Hs & Hb) _].
  exists s, before. auto.
Defined.

Lemma Dashboard_dispatch_witness :
  @Dashboard const_of_spec hooks_fetching = Loading ∧
  @Dashboard const_of_spec (hooks_failed (Some "boom"))
    = NoData "no dataset info" "boom" ∧
  @Dashboard const_of_spec (hooks_failed None)
    = NoData "no dataset info" "unknown error" ∧
  ∃ hd ss, @Dashboard const_of_spec hooks_all = Page hd ss ∧ length ss = 6.
Proof.
  split; [|split; [|split]].
  - apply (@Dashboard_dispatch const_of_spec hooks_fetching). reflexivity.
  - apply (@Dashboard_dispatch const_of_spec (hooks_failed (Some "boom")));
      [reflexivity | left; eexists; reflexivity].
  - apply (@Dashboard_dispatch const_of_spec (hooks_failed None));
      [reflexivity | left; eexists; reflexivity].
  - apply (@Dashboard_dispatch const_of_spec hooks_all) with info_all.
    exact fetched_hooks_all.
Defined.

(** C2, as worded: with an error whose message is present and is the empty
    string, the placeholder does not show that message. *)
Lemma Dashboard_message_if_present_fails :
  isFetching (hooks_failed (Some "")) = false ∧
  error (hooks_failed (Some "")) = Some {| message := Some "" |} ∧
  @Dashboard const_of_spec (hooks_failed (Some ""))
    = NoData "no dataset info" "unknown error" ∧
  @Dashboard const_of_spec (hooks_failed (Some ""))
    ≠ NoData "no dataset info"
        (@message_if_present const_of_spec
           (error (hooks_failed (Some "")))).
Proof.
  split; [reflexivity|]. split; [reflexivity|]. split; [reflexivity|].
  apply (@empty_message_not_shown const_of_spec). discriminate.
Qed.

Lemma empty_message_gives_fallback_witness :
  isFetching (hooks_failed (Some "")) = false ∧
  error (hooks_failed (Some "")) = Some {| message := Some "" |} ∧
  @Dashboard const_of_spec (hooks_failed (Some ""))
    = NoData "no dataset info" "unknown error".
Proof.
  split; [reflexivity|]. split; [reflexivity|].
  apply (@empty_message_gives_fallback const_of_spec
           (hooks_failed (Some "")) ""); reflexivity.
Defined.

Lemma postprocessing_rendered_iff_witness :
  fetched hooks_all info_all ∧
  rendered (@cells_default const_of_spec info_all)
           "Post-processing Analysis" (@Dashboard const_of_spec hooks_all)
    = true.
Proof.
  split; [exact fetched_hooks_all|].
  apply (@postprocessing_rendered_iff const_of_spec hooks_all info_all
           _ fetched_hooks_all).
  split; [reflexivity|]. split; [reflexivity|].
  exists {| pipelineIndex := 0 |}, {[ 0 := true ]}.
  repeat split.
Defined.

Lemma class_overlap_rendered_iff_witness :
  fetched hooks_all info_all ∧
  rendered (@cells_default const_of_spec info_all) "Class Overlap"
           (@Dashboard const_of_spec hooks_all) = true.
Proof.
  split; [exact fetched_hooks_all|].
  apply (@class_overlap_rendered_iff const_of_spec hooks_all info_all
           _ fetched_hooks_all).
  split; reflexivity.
Defined.

Lemma pipeline_sections_rendered_iff_witness :
  fetched hooks_all info_all ∧
  rendered (@cells_default const_of_spec info_all)
           "Pipeline Metrics by Data Subpopulation"
           (@Dashboard const_of_spec hooks_all) = true ∧
  rendered (@cells_default const_of_spec info_all) "Smart Tag Analysis"
           (@Dashboard const_of_spec hooks_all) = true.
Proof.
  split; [exact fetched_hooks_all|].
  destruct (@pipeline_sections_rendered_iff const_of_spec hooks_all info_all
              (@cells_default const_of_spec info_all) fetched_hooks_all)
    as (M & T & _).
  split; [apply M | apply T]; reflexivity.
Defined.

Lemma behavioral_testing_rendered_iff_witness :
  fetched hooks_all info_all ∧
  rendered (@cells_default const_of_spec info_all) "Behavioral Testing"
           (@Dashboard const_of_spec hooks_all) = true.
Proof.
  split; [exact fetched_hooks_all|].
  apply (@behavioral_testing_rendered_iff const_of_spec hooks_all info_all
           _ fetched_hooks_all).
  split; reflexivity.
Defined.

Lemma header_and_warnings_always_witness :
  fetched hooks_no_pipeline info_train_only ∧
  rendered (@cells_default const_of_spec info_train_only)
           "Dataset Warnings" (@Dashboard const_of_spec hooks_no_pipeline)
    = true.
Proof.
  assert (Hf : fetched hooks_no_pipeline info_train_only)
    by (repeat split).
  split; [exact Hf|].
  apply (@header_and_warnings_always const_of_spec hooks_no_pipeline
           info_train_only _ Hf).
Defined.

Lemma compare_pipelines_label_witness :
  fetched hooks_all info_all ∧
  metrics_card_all
    ∈ cards (@cells_default const_of_spec info_all)
            (@Dashboard const_of_spec hooks_all) ∧
  title metrics_card_all = "Pipeline Metrics by Data Subpopulation" ∧
  (linkButtonText metrics_card_all = Some "Compare pipelines" ↔
   ∃ cfg ps, config hooks_all = Some cfg ∧ pipelines cfg = Some ps ∧
             1 < length ps).
Proof.
  assert (Hin : metrics_card_all
                  ∈ cards (@cells_default const_of_spec info_all)
                          (@Dashboard const_of_spec hooks_all)).
  { apply (list_elem_of_lookup_2 _ 2). vm_compute. reflexivity. }
  split; [exact fetched_hooks_all|]. split; [exact Hin|].
  split; [reflexivity|].
  apply (@compare_pipelines_label const_of_spec hooks_all info_all _
           metrics_card_all fetched_hooks_all Hin eq_refl).
Defined.

Lemma links_shape_witness :
  fetched hooks_all info_all ∧
  "/local/thresholds?pipeline_index=0"
    ∈ links (@cells_default const_of_spec info_all)
            (@Dashboard const_of_spec hooks_all) ∧
  link_shape "local" "?pipeline_index=0"
             "/local/thresholds?pipeline_index=0".
Proof.
  assert (Hin : "/local/thresholds?pipeline_index=0"
                  ∈ links (@cells_default const_of_spec info_all)
                          (@Dashboard const_of_spec hooks_all)).
  { apply (list_elem_of_lookup_2 _ 6). vm_compute. reflexivity. }
  split; [exact fetched_hooks_all|]. split; [exact Hin|].
  apply (@links_shape const_of_spec hooks_all info_all _ _
           fetched_hooks_all Hin).
Defined.

(** * More about the page *)

(** Opens the page of a finished fetch and splits on the four conditions
    that gate its sections. *)
Ltac page_cases h info Hf :=
  let E := fresh "E" in
  let Ee := fresh "Ee" in
  let Ed := fresh "Ed" in
  destruct Hf as (E & Ee & Ed); unfold Dashboard; rewrite E, Ee, Ed;
  destruct (isPipelineSelected (pipeline h)); cbn [andb];
  destruct (truthy (availableDatasetSplits info !! "train")
            && similarityAvailable info),
    (perturbationTestingAvailable info),
    (truthy (availableDatasetSplits info !! "eval")
     && truthy (editableAt info (pipeline h)));
  cbn.

Lemma section_titles_NoDup : NoDup section_titles.
Proof. apply (bool_decide_unpack (NoDup section_titles)). vm_compute. exact I. Qed.

Section Coverage.
Context `{Const}.

(** ** The default split, whatever the mapping holds *)

Lemma find_sound {A : Type} (f : A -> bool) (l : list A) (s : A) :
  find f l = Some s -> s ∈ l ∧ f s = true.
Proof.
  induction l as [|a l IH]; simpl; [discriminate|].
  destruct (f a) eqn:Ea.
  - intros [= <-]. split; [left | exact Ea].
  - intros Hs. destruct (IH Hs) as [Hin Hf]. split; [by right | exact Hf].
Qed.

Lemma find_None_iff {A : Type} (f : A -> bool) (l : list A) :
  find f l = None ↔ ∀ x, x ∈ l -> f x = false.
Proof.
  induction l as [|a l IH]; simpl.
  - split; [|reflexivity]. intros _ x Hx. inversion Hx.
  - destruct (f a) eqn:Ea.
    + split; [discriminate|]. intros Hall.
      rewrite (Hall a) in Ea by left. discriminate.
    + rewrite IH. split.
      * intros Hall x Hx. apply elem_of_cons in Hx as [->|Hx]; auto.
      * intros Hall x Hx. apply Hall. by right.
Qed.

Lemma find_ext_in {A : Type} (f g : A -> bool) (l : list A) :
  (∀ x, x ∈ l -> f x = g x) -> find f l = find g l.
Proof.
  induction l as [|a l IH]; simpl; [reflexivity|]. intros Hfg.
  rewrite (Hfg a) by left. destruct (g a); [reflexivity|].
  apply IH. intros x Hx. apply Hfg. by right.
Qed.

Lemma firstAvailableDatasetSplit_None (info : DatasetInfoResponse) :
  firstAvailableDatasetSplit info = None ↔
  ∀ name, name ∈ DATASET_SPLIT_NAMES ->
          availableDatasetSplits info !! name ≠ Some true.
Proof.
  unfold firstAvailableDatasetSplit. rewrite find_None_iff.
  split; intros Hall name Hin; specialize (Hall name Hin).
  - intros Htrue. apply truthy_true in Htrue. simpl in Hall. congruence.
  - apply not_true_is_false. rewrite truthy_true. exact Hall.
Qed.

(** X1.  Whatever the dataset info holds, a split that
    [firstAvailableDatasetSplit] returns is a name of
    [DATASET_SPLIT_NAMES] whose entry is true; it returns [undefined]
    exactly when no listed name has a true entry; and entries under other
    keys are never read: two dataset infos that agree on the listed names
    have the same first split. *)
Theorem firstAvailableDatasetSplit_spec (info : DatasetInfoResponse) :
  (∀ s, firstAvailableDatasetSplit info = Some s ->
        s ∈ DATASET_SPLIT_NAMES ∧
        availableDatasetSplits info !! s = Some true) ∧
  (firstAvailableDatasetSplit info = None ↔
   ∀ name, name ∈ DATASET_SPLIT_NAMES ->
           availableDatasetSplits info !! name ≠ Some true) ∧
  (∀ info',
     (∀ name, name ∈ DATASET_SPLIT_NAMES ->
              availableDatasetSplits info' !! name
              = availableDatasetSplits info !! name) ->
     firstAvailableDatasetSplit info' = firstAvailableDatasetSplit info).
Proof.
  split; [|split].
  - intros s Hs. apply find_sound in Hs as [Hin Ht].
    split; [exact Hin | by apply truthy_true].
  - apply firstAvailableDatasetSplit_None.
  - intros info' Hagree. unfold firstAvailableDatasetSplit.
    apply find_ext_in. intros name Hin. simpl. rewrite (Hagree name Hin).
    reflexivity.
Qed.

(** X2.  When the fetch succeeded with data in which no listed split is
    available, the page is still shown: the non-null assertion checks
    nothing, the header button links to the split named [undefined], and
    every split-name state starts with [undefined] as its split. *)
Theorem no_split_links_undefined (h : Hooks) (info : DatasetInfoResponse)
    (cells : nat -> option string) :
  fetched h info ->
  (∀ name, name ∈ DATASET_SPLIT_NAMES ->
           availableDatasetSplits info !! name ≠ Some true) ->
  (∃ hd, header_of (Dashboard h) = Some hd ∧
         buttonTo hd = "/" +:+ jobId h
                         +:+ "/dataset_splits/undefined/prediction_overview"
                         +:+ searchString h) ∧
  rendered cells "Dataset Warnings" (Dashboard h) = true ∧
  (∀ w, WithDatasetSplitNameState w ∈ sections_of (Dashboard h) ->
        current (mount w) = None).
Proof.
  intros Hf Hnone. apply firstAvailableDatasetSplit_None in Hnone.
  split; [|split].
  - destruct (header_button h info Hf) as (hd & Hhd & Hto).
    exists hd. split; [exact Hhd|]. rewrite Hto, Hnone. reflexivity.
  - apply (rendered_fetched h info cells Hf).
  - intros w Hw.
    destruct (section_table h info _ Hf Hw)
      as [(c & [=] & _) | (w' & [= <-] & Hdef)].
    rewrite mount_current, Hdef. exact Hnone.
Qed.

(** ** Order of the sections *)

(** X3.  For every result of the hooks and every split the sections show,
    the titles on screen come in the order Dataset Warnings, Class Overlap,
    Pipeline Metrics by Data Subpopulation, Smart Tag Analysis, Behavioral
    Testing, Post-processing Analysis, each at most once; and on a page the
    first of them is Dataset Warnings. *)
Theorem titles_in_order (h : Hooks) (cells : nat -> option string) :
  title <$> cards cells (Dashboard h) `sublist_of` section_titles ∧
  NoDup (title <$> cards cells (Dashboard h)) ∧
  (∀ info, fetched h info ->
           head (title <$> cards cells (Dashboard h))
           = Some "Dataset Warnings").
Proof.
  assert (Hsub : title <$> cards cells (Dashboard h)
                   `sublist_of` section_titles).
  { destruct (isFetching h) eqn:E;
      [rewrite (Dashboard_fetching h E); apply sublist_nil_l|].
    destruct (error h) as [e|] eqn:Ee;
      [rewrite (Dashboard_no_data h E) by (rewrite Ee; eauto);
       apply sublist_nil_l|].
    destruct (datasetInfo h) as [info|] eqn:Ed;
      [|rewrite (Dashboard_no_data h E) by auto; apply sublist_nil_l].
    assert (Hf : fetched h info) by (repeat split; assumption).
    page_cases h info Hf; unfold section_titles; repeat constructor. }
  split; [exact Hsub|]. split.
  - exact (sublist_NoDup _ _ section_titles_NoDup Hsub).
  - intros info (E & Ee & Ed). unfold Dashboard. rewrite E, Ee, Ed.
    reflexivity.
Qed.

(** X4.  On a page, Behavioral Testing and Post-processing Analysis never
    show without Pipeline Metrics by Data Subpopulation and Smart Tag
    Analysis, which show together or not at all; and with no pipeline
    selected the only cards are Dataset Warnings and Class Overlap. *)
Theorem pipeline_gated_sections (h : Hooks) (info : DatasetInfoResponse)
    (cells : nat -> option string) :
  fetched h info ->
  (rendered cells "Behavioral Testing" (Dashboard h) = true ∨
   rendered cells "Post-processing Analysis" (Dashboard h) = true ->
   rendered cells "Pipeline Metrics by Data Subpopulation" (Dashboard h)
     = true ∧
   rendered cells "Smart Tag Analysis" (Dashboard h) = true) ∧
  rendered cells "Pipeline Metrics by Data Subpopulation" (Dashboard h)
    = rendered cells "Smart Tag Analysis" (Dashboard h) ∧
  (pipeline h = None ->
   ∀ c, c ∈ cards cells (Dashboard h) ->
        title c = "Dataset Warnings" ∨ title c = "Class Overlap").
Proof.
  intros Hf.
  destruct (rendered_fetched h info cells Hf)
    as (_ & _ & R1 & R2 & R3 & R4).
  simpl in R1, R2, R3, R4. split; [|split].
  - rewrite R1, R2, R3, R4.
    destruct (isPipelineSelected (pipeline h)); simpl; [auto|].
    intros [F|F]; discriminate.
  - rewrite R1, R2. reflexivity.
  - intros Hp c Hc.
    assert (Hsel : isPipelineSelected (pipeline h) = false)
      by (rewrite Hp; reflexivity).
    assert (Hshown : rendered cells (title c) (Dashboard h) = true)
      by (apply rendered_card; eauto).
    destruct (card_table h info cells c Hf Hc)
      as [[T _]|[[T _]|[[T _]|[[T _]|[[T _]|[T _]]]]]]; auto;
      rewrite T in Hshown; exfalso.
    + rewrite R1, Hsel in Hshown. discriminate.
    + rewrite R2, Hsel in Hshown. discriminate.
    + rewrite R3, Hsel in Hshown. discriminate.
    + rewrite R4, Hsel in Hshown. discriminate.
Qed.

(** ** The props the previews get *)

Lemma card_props_table (h : Hooks) (info : DatasetInfoResponse)
    (cells : nat -> option string) (c : PreviewCardProps) :
  fetched h info ->
  c ∈ cards cells (Dashboard h) ->
  preview_job (preview_of c) = jobId h ∧
  (∀ m, preview_splits (preview_of c) = Some m ->
        m = availableDatasetSplits info) ∧
  (∀ pl, preview_pipeline (preview_of c) = Some pl -> pl = pipeline h) ∧
  (title c = "Dataset Warnings" ∨
   preview_pipeline (preview_of c) = Some (pipeline h)) ∧
  (title c = "Pipeline Metrics by Data Subpopulation" ∨
   linkButtonText c = None).
Proof.
  intros Hf. page_cases h info Hf; intros Hin;
    repeat (apply elem_of_cons in Hin as [->|Hin]);
    try (by apply elem_of_nil in Hin); cbn;
    (split; [reflexivity|]); (split; [intros m; congruence|]);
    (split; [intros pl; congruence|]);
    split; first [left; reflexivity | right; reflexivity].
Qed.

(** X5.  Every preview on a page is given the job id of the page; every
    preview that takes a pipeline is given the pipeline of the query state
    as it is; and every preview that takes the available splits is given
    the mapping of the dataset info, unchanged. *)
Theorem previews_get_page_props (h : Hooks) (info : DatasetInfoResponse)
    (cells : nat -> option string) (c : PreviewCardProps) :
  fetched h info ->
  c ∈ cards cells (Dashboard h) ->
  preview_job (preview_of c) = jobId h ∧
  (∀ pl, preview_pipeline (preview_of c) = Some pl -> pl = pipeline h) ∧
  (∀ m, preview_splits (preview_of c) = Some m ->
        m = availableDatasetSplits info).
Proof.
  intros Hf Hc.
  destruct (card_props_table h info cells c Hf Hc) as (J & S & P & _).
  auto.
Qed.

(** X6.  Every card of a page other than Dataset Warnings and Class
    Overlap holds a preview whose pipeline prop is a selected pipeline:
    Pipeline Metrics, Smart Tag Analysis, Behavioral Testing and
    Post-processing Analysis are never mounted with no pipeline. *)
Theorem pipeline_previews_have_pipeline (h : Hooks)
    (info : DatasetInfoResponse) (cells : nat -> option string)
    (c : PreviewCardProps) :
  fetched h info ->
  c ∈ cards cells (Dashboard h) ->
  title c ≠ "Dataset Warnings" ->
  title c ≠ "Class Overlap" ->
  ∃ q, pipeline h = Some q ∧
       preview_pipeline (preview_of c) = Some (Some q).
Proof.
  intros Hf Hc Hw Ho.
  destruct (rendered_fetched h info cells Hf)
    as (_ & _ & R1 & R2 & R3 & R4).
  simpl in R1, R2, R3, R4.
  assert (Hshown : rendered cells (title c) (Dashboard h) = true)
    by (apply rendered_card; eauto).
  assert (Hsel : isPipelineSelected (pipeline h) = true).
  { destruct (card_table h info cells c Hf Hc)
      as [[T _]|[[T _]|[[T _]|[[T _]|[[T _]|[T _]]]]]];
      try contradiction; rewrite T in Hshown.
    - rewrite <- R1. exact Hshown.
    - rewrite <- R2. exact Hshown.
    - rewrite R3 in Hshown. apply andb_true_iff in Hshown. tauto.
    - rewrite R4, !andb_true_iff in Hshown. tauto. }
  apply isPipelineSelected_true in Hsel as [q Hq].
  exists q. split; [exact Hq|].
  destruct (card_props_table h info cells c Hf Hc)
    as (_ & _ & _ & [T|P] & _); [contradiction|].
  rewrite P, Hq. reflexivity.
Qed.

(** X7.  Every card of a page other than Pipeline Metrics by Data
    Subpopulation has no link label, whatever the job configuration
    holds. *)
Theorem only_metrics_has_label (h : Hooks) (info : DatasetInfoResponse)
    (cells : nat -> option string) (c : PreviewCardProps) :
  fetched h info ->
  c ∈ cards cells (Dashboard h) ->
  title c ≠ "Pipeline Metrics by Data Subpopulation" ->
  linkButtonText c = None.
Proof.
  intros Hf Hc Hm.
  destruct (card_props_table h info cells c Hf Hc)
    as (_ & _ & _ & _ & [T|L]); [contradiction | exact L].
Qed.

(** ** The split a section shows and the links *)

(** X8.  A Pipeline Metrics or Smart Tag Analysis card links to the split
    that the cell of its own section holds, and hands that same split to
    its preview as [datasetSplitName]: link and content never name
    different splits. *)
Theorem split_sections_follow_cell (h : Hooks) (info : DatasetInfoResponse)
    (cells : nat -> option string) (i : nat) (c : PreviewCardProps) :
  fetched h info ->
  cards cells (Dashboard h) !! i = Some c ->
  title c = "Pipeline Metrics by Data Subpopulation" ∨
  title c = "Smart Tag Analysis" ->
  preview_split_name (preview_of c) = Some (cells i) ∧
  ∃ path, (path = "pipeline_metrics" ∨ path = "smart_tags") ∧
    to c = "/" +:+ jobId h +:+ "/dataset_splits/" +:+ interpolate (cells i)
             +:+ "/" +:+ path +:+ searchString h.
Proof.
  intros Hf. page_cases h info Hf; intros Hi Ht;
    repeat (destruct i as [|i]; [cbn in Hi; injection Hi as <-|]);
    try (cbn in Hi; discriminate);
    cbn in Ht; try (destruct Ht; discriminate); cbn.
  all: split; [reflexivity|].
  all: first [ exists "pipeline_metrics"; split; [by left | reflexivity]
             | exists "smart_tags"; split; [by right | reflexivity] ].
Qed.

(** X9.  The cards of a page other than Pipeline Metrics and Smart Tag
    Analysis are the same whatever split the section cells hold: choosing a
    split inside a section changes no other card. *)
Theorem plain_cards_ignore_cells (h : Hooks) (info : DatasetInfoResponse)
    (cells cells' : nat -> option string) (c : PreviewCardProps) :
  fetched h info ->
  c ∈ cards cells (Dashboard h) ->
  title c ≠ "Pipeline Metrics by Data Subpopulation" ->
  title c ≠ "Smart Tag Analysis" ->
  c ∈ cards cells' (Dashboard h).
Proof.
  intros Hf. page_cases h info Hf; intros Hin Hm Hs;
    repeat (apply elem_of_cons in Hin as [->|Hin]);
    try (by apply elem_of_nil in Hin);
    try (exfalso; apply Hm; reflexivity);
    try (exfalso; apply Hs; reflexivity);
    repeat first [ by apply list_elem_of_here | apply list_elem_of_further ].
Qed.

(** ** The placeholder *)

(** X10.  When the fallback [UNKNOWN_ERROR] is not the empty string, the
    placeholder never shows an empty text, whatever the error holds; its
    image always has the alternative text [no dataset info]. *)
Theorem placeholder_text_not_empty (h : Hooks) (alt t : string) :
  UNKNOWN_ERROR ≠ "" ->
  Dashboard h = NoData alt t ->
  t ≠ "" ∧ alt = "no dataset info".
Proof.
  intros Hne. unfold Dashboard.
  assert (Hor : ∀ v, or_else v UNKNOWN_ERROR ≠ "").
  { intros [m|]; [|exact Hne]. rewrite or_else_Some.
    case_bool_decide; assumption. }
  destruct (isFetching h); [discriminate|].
  destruct (error h) as [e|]; [|destruct (datasetInfo h) as [info|]];
    try discriminate; intros [= <- <-]; split; auto.
Qed.

(** ** The job configuration *)

(** X11.  The job configuration decides the link label of Pipeline Metrics
    and nothing else: with any other configuration the same titles and the
    same links are on screen; the whole result is the same when no pipeline
    is selected, when the dataset info is not there, and when the other
    configuration gives the same label. *)
Theorem config_changes_label_only (h : Hooks) (cfg : option AzimuthConfig)
    (cells : nat -> option string) :
  title <$> cards cells (Dashboard (with_config cfg h))
    = title <$> cards cells (Dashboard h) ∧
  links cells (Dashboard (with_config cfg h)) = links cells (Dashboard h) ∧
  (pipeline h = None -> Dashboard (with_config cfg h) = Dashboard h) ∧
  (isFetching h = true ∨ is_Some (error h) ∨ datasetInfo h = None ->
   Dashboard (with_config cfg h) = Dashboard h) ∧
  (compareLabel cfg = compareLabel (config h) ->
   Dashboard (with_config cfg h) = Dashboard h).
Proof.
  unfold Dashboard, with_config; cbn [isFetching error datasetInfo jobId
    pipeline searchString config].
  destruct (isFetching h); [repeat split; reflexivity|].
  destruct (error h) as [e|]; [repeat split; reflexivity|].
  destruct (datasetInfo h) as [info|]; [|repeat split; reflexivity].
  split; [|split; [|split; [|split]]].
  - destruct (isPipelineSelected (pipeline h)); cbn [andb];
      destruct (truthy (availableDatasetSplits info !! "train")
                && similarityAvailable info),
        (perturbationTestingAvailable info),
        (truthy (availableDatasetSplits info !! "eval")
         && truthy (editableAt info (pipeline h)));
      reflexivity.
  - destruct (isPipelineSelected (pipeline h)); cbn [andb];
      destruct (truthy (availableDatasetSplits info !! "train")
                && similarityAvailable info),
        (perturbationTestingAvailable info),
        (truthy (availableDatasetSplits info !! "eval")
         && truthy (editableAt info (pipeline h)));
      reflexivity.
  - intros ->. reflexivity.
  - intros [F|[[e F]|F]]; discriminate.
  - intros ->. reflexivity.
Qed.
End Coverage.

(** ** The further statements on concrete data *)

Lemma metrics_card_all_shown :
  cards (@cells_default const_of_spec info_all)
        (@Dashboard const_of_spec hooks_all) !! 2
  = Some metrics_card_all.
Proof. vm_compute. reflexivity. Defined.

Lemma behavioral_card_all_shown :
  cards (@cells_default const_of_spec info_all)
        (@Dashboard const_of_spec hooks_all) !! 4
  = Some behavioral_card_all.
Proof. vm_compute. reflexivity. Defined.

Lemma fetched_hooks_no_split : fetched hooks_no_split info_no_split.
Proof. repeat split. Defined.

Lemma info_no_split_none :
  ∀ name, name ∈ @DATASET_SPLIT_NAMES const_of_spec ->
          availableDatasetSplits info_no_split !! name ≠ Some true.
Proof.
  intros name Hin. simpl in Hin.
  apply elem_of_cons in Hin as [->|Hin]; [vm_compute; discriminate|].
  apply elem_of_cons in Hin as [->|Hin]; [vm_compute; discriminate|].
  by apply elem_of_nil in Hin.
Defined.

Lemma firstAvailableDatasetSplit_spec_witness :
  (∀ name, name ∈ @DATASET_SPLIT_NAMES const_of_spec ->
           availableDatasetSplits info_no_split !! name ≠ Some true) ∧
  @firstAvailableDatasetSplit const_of_spec info_no_split = None.
Proof.
  split; [exact info_no_split_none|].
  destruct (@firstAvailableDatasetSplit_spec const_of_spec info_no_split)
    as (_ & Hnone & _).
  apply Hnone. exact info_no_split_none.
Defined.

Lemma no_split_links_undefined_witness :
  fetched hooks_no_split info_no_split ∧
  (∀ name, name ∈ @DATASET_SPLIT_NAMES const_of_spec ->
           availableDatasetSplits info_no_split !! name ≠ Some true) ∧
  ∃ hd, header_of (@Dashboard const_of_spec hooks_no_split) = Some hd ∧
        buttonTo hd = "/local/dataset_splits/undefined/prediction_overview".
Proof.
  split; [exact fetched_hooks_no_split|].
  split; [exact info_no_split_none|].
  destruct (@no_split_links_undefined const_of_spec hooks_no_split
              info_no_split (fun _ => None) fetched_hooks_no_split
              info_no_split_none) as [(hd & Hhd & Hto) _].
  exists hd. split; [exact Hhd | exact Hto].
Defined.

Lemma titles_in_order_witness :
  fetched hooks_all info_all ∧
  head (title <$> cards (@cells_default const_of_spec info_all)
                        (@Dashboard const_of_spec hooks_all))
  = Some "Dataset Warnings".
Proof.
  split; [exact fetched_hooks_all|].
  apply (@titles_in_order const_of_spec hooks_all _ ) with info_all.
  exact fetched_hooks_all.
Defined.

Lemma pipeline_gated_sections_witness :
  fetched hooks_all info_all ∧
  rendered (@cells_default const_of_spec info_all) "Behavioral Testing"
           (@Dashboard const_of_spec hooks_all) = true ∧
  rendered (@cells_default const_of_spec info_all) "Smart Tag Analysis"
           (@Dashboard const_of_spec hooks_all) = true.
Proof.
  split; [exact fetched_hooks_all|]. split; [reflexivity|].
  destruct (@pipeline_gated_sections const_of_spec hooks_all info_all
              (@cells_default const_of_spec info_all) fetched_hooks_all)
    as (Hgate & _).
  apply Hgate. left. reflexivity.
Defined.

Lemma previews_get_page_props_witness :
  fetched hooks_all info_all ∧
  metrics_card_all
    ∈ cards (@cells_default const_of_spec info_all)
            (@Dashboard const_of_spec hooks_all) ∧
  preview_job (preview_of metrics_card_all) = "local".
Proof.
  assert (Hin := list_elem_of_lookup_2 _ _ _ metrics_card_all_shown).
  split; [exact fetched_hooks_all|]. split; [exact Hin|].
  apply (@previews_get_page_props const_of_spec hooks_all info_all _ _
           fetched_hooks_all Hin).
Defined.

Lemma pipeline_previews_have_pipeline_witness :
  fetched hooks_all info_all ∧
  metrics_card_all
    ∈ cards (@cells_default const_of_spec info_all)
            (@Dashboard const_of_spec hooks_all) ∧
  title metrics_card_all ≠ "Dataset Warnings" ∧
  title metrics_card_all ≠ "Class Overlap" ∧
  ∃ q, pipeline hooks_all = Some q ∧
       preview_pipeline (preview_of metrics_card_all) = Some (Some q).
Proof.
  assert (Hin := list_elem_of_lookup_2 _ _ _ metrics_card_all_shown).
  assert (Hw : title metrics_card_all ≠ "Dataset Warnings")
    by discriminate.
  assert (Ho : title metrics_card_all ≠ "Class Overlap") by discriminate.
  split; [exact fetched_hooks_all|]. split; [exact Hin|].
  split; [exact Hw|]. split; [exact Ho|].
  apply (@pipeline_previews_have_pipeline const_of_spec hooks_all info_all
           _ _ fetched_hooks_all Hin Hw Ho).
Defined.

Lemma only_metrics_has_label_witness :
  fetched hooks_all info_all ∧
  behavioral_card_all
    ∈ cards (@cells_default const_of_spec info_all)
            (@Dashboard const_of_spec hooks_all) ∧
  title behavioral_card_all ≠ "Pipeline Metrics by Data Subpopulation" ∧
  linkButtonText behavioral_card_all = None.
Proof.
  assert (Hin := list_elem_of_lookup_2 _ _ _ behavioral_card_all_shown).
  assert (Hm : title behavioral_card_all
               ≠ "Pipeline Metrics by Data Subpopulation") by discriminate.
  split; [exact fetched_hooks_all|]. split; [exact Hin|].
  split; [exact Hm|].
  apply (@only_metrics_has_label const_of_spec hooks_all info_all _ _
           fetched_hooks_all Hin Hm).
Defined.

Lemma split_sections_follow_cell_witness :
  fetched hooks_all info_all ∧
  cards (@cells_default const_of_spec info_all)
        (@Dashboard const_of_spec hooks_all) !! 2
  = Some metrics_card_all ∧
  preview_split_name (preview_of metrics_card_all)
  = Some (@cells_default const_of_spec info_all 2).
Proof.
  split; [exact fetched_hooks_all|].
  split; [exact metrics_card_all_shown|].
  apply (@split_sections_follow_cell const_of_spec hooks_all info_all _ 2
           metrics_card_all fetched_hooks_all metrics_card_all_shown).
  left. reflexivity.
Defined.

Lemma plain_cards_ignore_cells_witness :
  fetched hooks_all info_all ∧
  behavioral_card_all
    ∈ cards (@cells_default const_of_spec info_all)
            (@Dashboard const_of_spec hooks_all) ∧
  behavioral_card_all
    ∈ cards (fun _ => Some "eval") (@Dashboard const_of_spec hooks_all).
Proof.
  assert (Hin := list_elem_of_lookup_2 _ _ _ behavioral_card_all_shown).
  split; [exact fetched_hooks_all|]. split; [exact Hin|].
  apply (@plain_cards_ignore_cells const_of_spec hooks_all info_all _ _ _
           fetched_hooks_all Hin); discriminate.
Defined.

Lemma placeholder_text_not_empty_witness :
  @UNKNOWN_ERROR const_of_spec ≠ "" ∧
  @Dashboard const_of_spec (hooks_failed (Some ""))
    = NoData "no dataset info" "unknown error" ∧
  "unknown error" ≠ "".
Proof.
  assert (Hne : @UNKNOWN_ERROR const_of_spec ≠ "") by discriminate.
  split; [exact Hne|]. split; [reflexivity|].
  apply (@placeholder_text_not_empty const_of_spec (hooks_failed (Some ""))
           "no dataset info" "unknown error" Hne eq_refl).
Defined.

Lemma config_changes_label_only_witness :
  pipeline hooks_no_pipeline = None ∧
  @Dashboard const_of_spec (with_config (Some two_pipelines)
                                        hooks_no_pipeline)
  = @Dashboard const_of_spec hooks_no_pipeline.
Proof.
  split; [reflexivity|].
  destruct (@config_changes_label_only const_of_spec hooks_no_pipeline
              (Some two_pipelines) (fun _ => None))
    as (_ & _ & Hsame & _).
  apply Hsame. reflexivity.
Defined.
